(** * czor/main.c: the [upples] harness

    The program is a single entry point:
<<
    extern int32_t upples(const char* addr, const char* app,
                          const char* tmp, const char* log);

    int main() {
        int32_t res = upples("127.0.0.1:3000", ".../spin.toml",
                             "./TEMPYWEMPY", "./LOGGLYWOGGLY");
        printf("UPPLES: %d\n", res);
        return res;
    }
>>
    [main] talks to its environment (the external function, the standard
    streams), so it is embedded as an interaction tree over the events a C
    program linked against stdio can perform.  The external function is a
    variable of the development: every theorem holds whatever it does. *)

From Stdlib Require Import ZArith String Ascii List Bool Lia.
From Stdlib.Strings Require Import Byte.
From ITree Require Import ITree Props.Finite.
Import ListNotations.
Import ITreeNotations.

Local Open Scope string_scope.
Local Open Scope Z_scope.

(** ** Machine integers *)

(** [int32_t], and [int] on the targets where [int32_t] is a typedef of
    [int].  Values are mathematical integers; a conversion to the type keeps
    the low 32 bits, read as two's complement. *)
Module Int32.

Definition modulus : Z := 2 ^ 32.
Definition min_signed : Z := - 2 ^ 31.
Definition max_signed : Z := 2 ^ 31 - 1.

Definition in_range (z : Z) : Prop := min_signed <= z <= max_signed.

Definition wrap (z : Z) : Z := (z + 2 ^ 31) mod modulus - 2 ^ 31.

End Int32.

(** ** C strings *)

Definition newline : ascii := ascii_of_nat 10.

Module CString.

(** The array a string literal denotes: its characters and a terminating
    zero byte. *)
Definition literal (s : string) : list byte :=
  (list_byte_of_string s ++ [x00])%list.

(** [strlen]: the index of the first zero byte; scanning past the end of
    the array has no defined result. *)
Fixpoint strlen (mem : list byte) : option nat :=
  match mem with
  | [] => None
  | b :: rest =>
      if Byte.eqb b x00 then Some O else option_map S (strlen rest)
  end.

(** A pointer argument is a valid null-terminated text when the array it
    points to has a terminator, and the text it denotes is the whole
    literal when the first terminator is the appended one. *)
Definition denotes (mem : list byte) (s : string) : Prop :=
  strlen mem = Some (String.length s) /\
  firstn (String.length s) mem = list_byte_of_string s.

End CString.

(** ** The part of the C library [main] uses: [printf] *)

Module Stdio.

Definition digit_char (d : Z) : ascii := ascii_of_nat (48 + Z.to_nat d).

(** Decimal digits of a non-negative number, least significant digit
    produced first and pushed in front of [acc]; [fuel] bounds the number
    of digits. *)
Fixpoint utoa (fuel : nat) (n : Z) (acc : string) : string :=
  match fuel with
  | O => acc
  | S fuel' =>
      let acc' := String (digit_char (n mod 10)) acc in
      if n / 10 =? 0 then acc' else utoa fuel' (n / 10) acc'
  end.

(** The [%d] conversion of an [int]: a minus sign for negative values, then
    the digits of the magnitude without leading zeros.  Ten digits are
    enough for 32 bits. *)
Definition itoa (z : Z) : string :=
  if z <? 0 then String "-" (utoa 10 (- z) "") else utoa 10 z "".

(** The format interpreter, for the directives [%d] and [%%].  An argument
    consumed by [%d] is read at type [int]. *)
Fixpoint format (fmt : string) (args : list Z) : string :=
  match fmt with
  | EmptyString => EmptyString
  | String c rest =>
      if Ascii.eqb c "%" then
        match rest with
        | EmptyString => String c EmptyString
        | String d rest' =>
            if Ascii.eqb d "d" then
              match args with
              | a :: args' => itoa (Int32.wrap a) ++ format rest' args'
              | [] => format rest' []
              end
            else if Ascii.eqb d "%" then String "%" (format rest' args)
            else String c (format rest args)
        end
      else String c (format rest args)
  end.

(** Reading a decimal number back, used to say what a printed number
    denotes. *)
Definition digit_val (c : ascii) : option Z :=
  let n := Z.of_nat (nat_of_ascii c) in
  if (48 <=? n) && (n <=? 57) then Some (n - 48) else None.

Fixpoint parse_digits (s : string) (acc : Z) : option Z :=
  match s with
  | EmptyString => Some acc
  | String c rest =>
      match digit_val c with
      | Some d => parse_digits rest (10 * acc + d)
      | None => None
      end
  end.

Definition parse_int (s : string) : option Z :=
  match s with
  | EmptyString => None
  | String c rest =>
      if Ascii.eqb c "-" then
        match rest with
        | EmptyString => None
        | _ => option_map Z.opp (parse_digits rest 0)
        end
      else parse_digits s 0
  end.

End Stdio.

(** ** The process and its environment *)

Inductive stream := Stdout | Stderr.

(** What a C program can ask of its environment: the external function of
    this repository, and the input and output the C library offers. *)
Variant procE : Type -> Type :=
| Upples (addr app tmp log : string) : procE Z
| Fputs (st : stream) (data : string) : procE Z
| Fgets : procE string
| Fopen (path : string) : procE bool
| Getenv (name : string) : procE (option string).

(** Everything outside the program that a run can read or change. *)
Record World := mkWorld {
  w_stdout : string;
  w_stderr : string;
  w_stdin : string;
  w_files : list string;
  w_argv : list string;
  w_environ : list (string * string)
}.

(** What an observer of the process sees, in order. *)
Inductive event :=
| EvCall (addr app tmp log : string)
| EvRet (r : Z)
| EvWrite (st : stream) (data : string)
| EvRead
| EvOpen (path : string)
| EvGetenv (name : string)
| EvExit (status : Z).

Inductive outcome (R : Type) :=
| Returned (r : R) (w : World) (tr : list event)
| Blocked (tr : list event)
| OutOfFuel.
Arguments Returned {R}.
Arguments Blocked {R}.
Arguments OutOfFuel {R}.

Inductive exit :=
| Exited (status : Z) (w : World) (tr : list event)
| Hung (tr : list event)
| Unfinished.

Definition put (st : stream) (data : string) (w : World) : World :=
  match st with
  | Stdout => mkWorld (w_stdout w ++ data) (w_stderr w) (w_stdin w)
                      (w_files w) (w_argv w) (w_environ w)
  | Stderr => mkWorld (w_stdout w) (w_stderr w ++ data) (w_stdin w)
                      (w_files w) (w_argv w) (w_environ w)
  end.

Fixpoint lookup_env (name : string) (env : list (string * string))
  : option string :=
  match env with
  | [] => None
  | (k, v) :: rest => if String.eqb k name then Some v else lookup_env name rest
  end.

(** ** The program *)

(** [printf(fmt, ...)]: the formatted text goes to standard output; the
    result is the number of characters written. *)
Definition printf (fmt : string) (args : list Z) : itree procE Z :=
  ITree.trigger (Fputs Stdout (Stdio.format fmt args)).

Definition main : itree procE Z :=
  (res <- ITree.trigger
           (Upples "127.0.0.1:3000"
                   "/home/ivan/github/spin/examples/http-rust/spin.toml"
                   "./TEMPYWEMPY"
                   "./LOGGLYWOGGLY") ;;
   printf ("UPPLES: %d" ++ String newline "") [res] ;;
   Ret res)%itree.

(** ** Running a process *)

Section Run.

(** The external function: given its arguments and the world, it either
    returns a status and a changed world, or never returns. *)
Variable upples_impl :
  string -> string -> string -> string -> World -> option (World * Z).

(** The event a request shows to an observer when it is made... *)
Definition issued {X} (e : procE X) : event :=
  match e with
  | Upples a b c d => EvCall a b c d
  | Fputs st data => EvWrite st data
  | Fgets => EvRead
  | Fopen path => EvOpen path
  | Getenv name => EvGetenv name
  end.

(** ... and when it is answered: only the return of the external function
    is visible. *)
Definition answered {X} (e : procE X) : X -> list event :=
  match e in procE X return X -> list event with
  | Upples _ _ _ _ => fun r => [EvRet r]
  | _ => fun _ => []
  end.

Definition handle {X} (e : procE X) (w : World) : option (World * X) :=
  match e in procE X return option (World * X) with
  | Upples a b c d => upples_impl a b c d w
  | Fputs st data => Some (put st data w, Z.of_nat (String.length data))
  | Fgets =>
      Some (mkWorld (w_stdout w) (w_stderr w) "" (w_files w) (w_argv w)
                    (w_environ w), w_stdin w)
  | Fopen path =>
      Some (mkWorld (w_stdout w) (w_stderr w) (w_stdin w)
                    (path :: w_files w) (w_argv w) (w_environ w), true)
  | Getenv name => Some (w, lookup_env name (w_environ w))
  end.

(** One node of the tree per unit of fuel. *)
Fixpoint exec {R} (fuel : nat) (t : itree procE R) (w : World)
         (tr : list event) : outcome R :=
  match fuel with
  | O => OutOfFuel
  | S fuel' =>
      match observe t with
      | RetF r => Returned r w tr
      | TauF t' => exec fuel' t' w tr
      | VisF e k =>
          let tr1 := (tr ++ [issued e])%list in
          match handle e w with
          | None => Blocked tr1
          | Some (w', x) => exec fuel' (k x) w' (tr1 ++ answered e x)%list
          end
      end
  end.

(** The C start-up code: returning [r] from the initial call of [main] is
    calling [exit(r)]. *)
Definition run_process (fuel : nat) (w : World) : exit :=
  match exec fuel main w [] with
  | Returned r w' tr => Exited r w' (tr ++ [EvExit r])%list
  | Blocked tr => Hung tr
  | OutOfFuel => Unfinished
  end.

End Run.

(** ** The declared boundary *)

(** Line 4 of the source, as data. *)
Inductive ctype := Tint32 | Tconst_char_ptr.

Record fundecl := mkFundecl {
  fd_name : string;
  fd_params : list ctype;
  fd_result : ctype
}.

Definition upples_decl : fundecl :=
  mkFundecl "upples"
            [Tconst_char_ptr; Tconst_char_ptr; Tconst_char_ptr; Tconst_char_ptr]
            Tint32.

(** ** The call at the level of C values *)

(** Below the texts of [procE]: memory holds arrays of bytes, an argument is
    an integer or a pointer, and a call is checked against the declaration
    of the callee.  A run that passes what the declaration does not allow
    is a violation. *)
Module Abi.

Record pointer := mkPointer { p_object : nat; p_offset : nat }.

Inductive value := Vint (z : Z) | Vptr (p : pointer).

Definition memory : Type := list (list byte).

(** The text at a pointer: the bytes from the offset up to the first zero
    byte of the object.  There is none when the object does not exist or
    has no zero byte from the offset on. *)
Definition read_text (m : memory) (p : pointer) : option string :=
  match nth_error m (p_object p) with
  | None => None
  | Some object =>
      let bytes := skipn (p_offset p) object in
      option_map (fun n => string_of_list_byte (firstn n bytes))
                 (CString.strlen bytes)
  end.

(** Passing actual arguments to parameters of the declared types: as many
    arguments as parameters, and for a [const char*] parameter a pointer to
    a text. *)
Fixpoint read_args (m : memory) (params : list ctype) (actuals : list value)
  : option (list string) :=
  match params, actuals with
  | [], [] => Some []
  | Tconst_char_ptr :: params', Vptr p :: actuals' =>
      match read_text m p, read_args m params' actuals' with
      | Some text, Some texts => Some (text :: texts)
      | _, _ => None
      end
  | _, _ => None
  end.

(** Receiving a result of the declared type from what the callee left in the
    result register. *)
Definition receive (t : ctype) (raw : Z) : option Z :=
  match t with
  | Tint32 => Some (Int32.wrap raw)
  | Tconst_char_ptr => None
  end.

Fixpoint int_args (actuals : list value) : option (list Z) :=
  match actuals with
  | [] => Some []
  | Vint z :: actuals' => option_map (cons z) (int_args actuals')
  | Vptr _ :: _ => None
  end.

Variant abiE : Type -> Type :=
| Call_upples (actuals : list value) : abiE Z
| Call_printf (fmt : pointer) (actuals : list value) : abiE Z.

(** The arrays of the five string literals of the source, in the order they
    occur. *)
Definition rodata : memory :=
  [CString.literal "127.0.0.1:3000";
   CString.literal "/home/ivan/github/spin/examples/http-rust/spin.toml";
   CString.literal "./TEMPYWEMPY";
   CString.literal "./LOGGLYWOGGLY";
   CString.literal ("UPPLES: %d" ++ String newline "")].

Definition literal_at (n : nat) : pointer := mkPointer n 0.

(** [main], with each literal passed as the pointer to its array. *)
Definition main : itree abiE Z :=
  (res <- ITree.trigger
            (Call_upples [Vptr (literal_at 0); Vptr (literal_at 1);
                          Vptr (literal_at 2); Vptr (literal_at 3)]) ;;
   ITree.trigger (Call_printf (literal_at 4) [Vint res]) ;;
   Ret res)%itree.

Definition call_actuals {R} (t : itree abiE R) : option (list value) :=
  match observe t with
  | VisF e _ =>
      match e with
      | Call_upples actuals => Some actuals
      | Call_printf _ _ => None
      end
  | _ => None
  end.

Inductive checked (A : Type) :=
| Violation
| Ran (a : A).
Arguments Violation {A}.
Arguments Ran {A}.

Section Exec.

Variable decl : fundecl.
Variable m : memory.

(** The callee, as machine code: it gets the four texts and leaves a raw
    value in the result register, or does not return. *)
Variable raw_upples :
  string -> string -> string -> string -> World -> option (World * Z).

Fixpoint exec {R} (fuel : nat) (t : itree abiE R) (w : World)
         (tr : list event) : checked (outcome R) :=
  match fuel with
  | O => Ran OutOfFuel
  | S fuel' =>
      match observe t with
      | RetF r => Ran (Returned r w tr)
      | TauF t' => exec fuel' t' w tr
      | VisF e k =>
          match e in abiE X
                return (X -> itree abiE R) -> checked (outcome R) with
          | Call_upples actuals => fun k =>
              match read_args m (fd_params decl) actuals with
              | Some [a; b; c; d] =>
                  let tr1 := (tr ++ [EvCall a b c d])%list in
                  match raw_upples a b c d w with
                  | None => Ran (Blocked tr1)
                  | Some (w', raw) =>
                      match receive (fd_result decl) raw with
                      | Some r => exec fuel' (k r) w' (tr1 ++ [EvRet r])%list
                      | None => Violation
                      end
                  end
              | _ => Violation
              end
          | Call_printf fmt actuals => fun k =>
              match read_text m fmt, int_args actuals with
              | Some f, Some zs =>
                  let text := Stdio.format f zs in
                  exec fuel' (k (Z.of_nat (String.length text)))
                       (put Stdout text w) (tr ++ [EvWrite Stdout text])%list
              | _, _ => Violation
              end
          end k
      end
  end.

End Exec.

(** The process of [main], checked against the declaration on line 4. *)
Definition run
  (raw_upples : string -> string -> string -> string -> World
                -> option (World * Z))
  (fuel : nat) (w : World) : checked exit :=
  match exec upples_decl rodata raw_upples fuel main w [] with
  | Violation => Violation
  | Ran (Returned r w' tr) => Ran (Exited r w' (tr ++ [EvExit r])%list)
  | Ran (Blocked tr) => Ran (Hung tr)
  | Ran OutOfFuel => Ran Unfinished
  end.

(** The external function as the texts of [procE] see it: the raw result
    received at type [int32_t]. *)
Definition int32_result
  (raw_upples : string -> string -> string -> string -> World
                -> option (World * Z))
  (a b c d : string) (w : World) : option (World * Z) :=
  match raw_upples a b c d w with
  | Some (w', raw) => Some (w', Int32.wrap raw)
  | None => None
  end.

End Abi.

(** ** Observations on runs *)

(** What the environment's [upples] answers to the call [main] makes. *)
Definition the_call
  (impl : string -> string -> string -> string -> World -> option (World * Z))
  (w : World) : option (World * Z) :=
  impl "127.0.0.1:3000"
       "/home/ivan/github/spin/examples/http-rust/spin.toml"
       "./TEMPYWEMPY"
       "./LOGGLYWOGGLY" w.

Fixpoint calls (tr : list event) : list (string * string * string * string) :=
  match tr with
  | [] => []
  | EvCall a b c d :: rest => (a, b, c, d) :: calls rest
  | _ :: rest => calls rest
  end.

Fixpoint writes (tr : list event) : list (stream * string) :=
  match tr with
  | [] => []
  | EvWrite st data :: rest => (st, data) :: writes rest
  | _ :: rest => writes rest
  end.

(** Everything the trace shows on standard output, concatenated. *)
Fixpoint printed (tr : list event) : string :=
  match tr with
  | [] => ""
  | EvWrite Stdout data :: rest => data ++ printed rest
  | _ :: rest => printed rest
  end.

(** An event with its payload erased. *)
Inductive event_kind :=
| KCall | KRet | KWrite (st : stream) | KRead | KOpen | KGetenv | KExit.

Definition kind (e : event) : event_kind :=
  match e with
  | EvCall _ _ _ _ => KCall
  | EvRet _ => KRet
  | EvWrite st _ => KWrite st
  | EvRead => KRead
  | EvOpen _ => KOpen
  | EvGetenv _ => KGetenv
  | EvExit _ => KExit
  end.

(** The call of the external function and the exit are the boundary of
    [main]; every other event is an effect [main] performs itself. *)
Definition is_boundary (e : event) : bool :=
  match e with
  | EvCall _ _ _ _ | EvRet _ | EvExit _ => true
  | _ => false
  end.

Definition own_effects (tr : list event) : list event :=
  filter (fun e => negb (is_boundary e)) tr.

Fixpoint string_forallb (p : ascii -> bool) (s : string) : bool :=
  match s with
  | EmptyString => true
  | String c rest => p c && string_forallb p rest
  end.

Definition no_newline (s : string) : bool :=
  string_forallb (fun c => negb (Ascii.eqb c newline)) s.

(** One line: the first newline is the last character. *)
Fixpoint single_line (s : string) : bool :=
  match s with
  | EmptyString => false
  | String c rest =>
      if Ascii.eqb c newline
      then match rest with EmptyString => true | _ => false end
      else single_line rest
  end.

Definition is_digit (c : ascii) : bool :=
  match Stdio.digit_val c with Some _ => true | None => false end.

(** Sample environments, for evaluating the model. *)
Definition world0 : World :=
  mkWorld "" "" "typed input" [] ["czor"; "--flag"] [("HOME", "/root")].

Definition world1 : World :=
  mkWorld "earlier output" "" "" ["./LOGGLYWOGGLY"] ["czor"] [].

Definition upples_ok (a b c d : string) (w : World) : option (World * Z) :=
  Some (w, 0).

Definition upples_fails (a b c d : string) (w : World) : option (World * Z) :=
  Some (put Stderr "bind failed" w, -7).

Definition upples_serves_forever (a b c d : string) (w : World)
  : option (World * Z) := None.

(** ** Any environment *)

(** An environment answers every request, the writes included: a write can
    fail (closed stream, full disk), and then [printf] returns a negative
    value. *)
Definition handler : Type :=
  forall X, procE X -> World -> option (World * X).

(** [exec], for an arbitrary environment. *)
Fixpoint exec_with {R} (h : handler) (fuel : nat) (t : itree procE R)
         (w : World) (tr : list event) : outcome R :=
  match fuel with
  | O => OutOfFuel
  | S fuel' =>
      match observe t with
      | RetF r => Returned r w tr
      | TauF t' => exec_with h fuel' t' w tr
      | VisF e k =>
          let tr1 := (tr ++ [issued e])%list in
          match h _ e w with
          | None => Blocked tr1
          | Some (w', x) =>
              exec_with h fuel' (k x) w' (tr1 ++ answered e x)%list
          end
      end
  end.

(** The environment of [handle] with standard output closed: a write to it
    changes nothing and answers -1. *)
Definition handle_closed_stdout
  (impl : string -> string -> string -> string -> World -> option (World * Z))
  : handler :=
  fun X e w =>
    match e in procE X return option (World * X) -> option (World * X) with
    | Fputs Stdout _ => fun _ => Some (w, -1)
    | _ => fun answer => answer
    end (handle impl e w).

(** ** Reading the result line back *)

(** What a reader of the output does with a line: drop the fixed prefix and
    the final newline, read the number between them. *)
Fixpoint strip_prefix (p s : string) : option string :=
  match p with
  | EmptyString => Some s
  | String c p' =>
      match s with
      | EmptyString => None
      | String d s' => if Ascii.eqb c d then strip_prefix p' s' else None
      end
  end.

Fixpoint strip_newline (s : string) : option string :=
  match s with
  | EmptyString => None
  | String c rest =>
      match rest with
      | EmptyString => if Ascii.eqb c newline then Some "" else None
      | String _ _ => option_map (String c) (strip_newline rest)
      end
  end.

Definition read_result (line : string) : option Z :=
  match strip_prefix "UPPLES: " line with
  | Some rest =>
      match strip_newline rest with
      | Some number => Stdio.parse_int number
      | None => None
      end
  | None => None
  end.

(** * Properties *)

(** ** Integers and decimal text *)

Lemma wrap_in_range z : Int32.in_range z -> Int32.wrap z = z.
Proof.
  unfold Int32.in_range, Int32.wrap, Int32.min_signed, Int32.max_signed,
    Int32.modulus.
  intros H. rewrite Z.mod_small; lia.
Qed.

Lemma wrap_range z : Int32.in_range (Int32.wrap z).
Proof.
  unfold Int32.in_range, Int32.wrap, Int32.min_signed, Int32.max_signed,
    Int32.modulus.
  pose proof (Z.mod_pos_bound (z + 2 ^ 31) (2 ^ 32) ltac:(lia)). lia.
Qed.

Lemma digit_cases d :
  0 <= d < 10 ->
  d = 0 \/ d = 1 \/ d = 2 \/ d = 3 \/ d = 4 \/
  d = 5 \/ d = 6 \/ d = 7 \/ d = 8 \/ d = 9.
Proof. lia. Qed.

Lemma digit_val_digit_char d :
  0 <= d < 10 -> Stdio.digit_val (Stdio.digit_char d) = Some d.
Proof.
  intros H. destruct (digit_cases d H) as [E|[E|[E|[E|[E|[E|[E|[E|[E|E]]]]]]]]];
    subst d; reflexivity.
Qed.

Lemma digit_char_not_newline d :
  0 <= d < 10 -> Ascii.eqb (Stdio.digit_char d) newline = false.
Proof.
  intros H. destruct (digit_cases d H) as [E|[E|[E|[E|[E|[E|[E|[E|[E|E]]]]]]]]];
    subst d; reflexivity.
Qed.

Lemma utoa_parse fuel : forall n acc,
  0 <= n < 10 ^ Z.of_nat fuel ->
  Stdio.parse_digits (Stdio.utoa fuel n acc) 0 = Stdio.parse_digits acc n.
Proof.
  induction fuel as [|fuel IH]; intros n acc Hn.
  - cbn in *. replace n with 0 by lia. reflexivity.
  - rewrite Nat2Z.inj_succ, Z.pow_succ_r in Hn by lia.
    pose proof (Z.mod_pos_bound n 10 ltac:(lia)) as Hd.
    pose proof (Z.div_mod n 10 ltac:(lia)) as Hdm.
    cbn [Stdio.utoa]. destruct (n / 10 =? 0) eqn:Hq.
    + apply Z.eqb_eq in Hq. cbn [Stdio.parse_digits].
      rewrite digit_val_digit_char by assumption.
      f_equal. lia.
    + apply Z.eqb_neq in Hq. rewrite IH.
      * cbn [Stdio.parse_digits]. rewrite digit_val_digit_char by assumption.
        f_equal. lia.
      * split; [apply Z.div_pos; lia | apply Z.div_lt_upper_bound; lia].
Qed.

Lemma utoa_head fuel : forall n acc,
  exists c s, Stdio.utoa (S fuel) n acc = String c s /\ is_digit c = true.
Proof.
  induction fuel as [|fuel IH]; intros n acc.
  - exists (Stdio.digit_char (n mod 10)), acc. split.
    + cbn. destruct (n / 10 =? 0); reflexivity.
    + unfold is_digit. rewrite digit_val_digit_char; [reflexivity|].
      apply Z.mod_pos_bound; lia.
  - change (Stdio.utoa (S (S fuel)) n acc)
      with (if n / 10 =? 0
            then String (Stdio.digit_char (n mod 10)) acc
            else Stdio.utoa (S fuel) (n / 10)
                            (String (Stdio.digit_char (n mod 10)) acc)).
    destruct (n / 10 =? 0).
    + exists (Stdio.digit_char (n mod 10)), acc. split; [reflexivity|].
      unfold is_digit. rewrite digit_val_digit_char; [reflexivity|].
      apply Z.mod_pos_bound; lia.
    + apply IH.
Qed.

Lemma utoa_no_newline fuel : forall n acc,
  no_newline acc = true -> no_newline (Stdio.utoa fuel n acc) = true.
Proof.
  induction fuel as [|fuel IH]; intros n acc Hacc; [exact Hacc|].
  assert (Hacc' : no_newline (String (Stdio.digit_char (n mod 10)) acc) = true).
  { unfold no_newline in *. cbn [string_forallb].
    rewrite digit_char_not_newline by (apply Z.mod_pos_bound; lia).
    exact Hacc. }
  cbn [Stdio.utoa]. destruct (n / 10 =? 0); [exact Hacc' | apply IH, Hacc'].
Qed.

Lemma itoa_no_newline z : no_newline (Stdio.itoa z) = true.
Proof.
  unfold Stdio.itoa. destruct (z <? 0).
  - change (no_newline (Stdio.utoa 10 (- z) "") = true).
    apply utoa_no_newline. reflexivity.
  - apply utoa_no_newline. reflexivity.
Qed.

(** The number printed by [%d] reads back as the value printed. *)
Lemma parse_itoa z : Int32.in_range z -> Stdio.parse_int (Stdio.itoa z) = Some z.
Proof.
  unfold Int32.in_range, Int32.min_signed, Int32.max_signed. intros Hz.
  unfold Stdio.itoa. destruct (z <? 0) eqn:Hneg.
  - apply Z.ltb_lt in Hneg.
    destruct (utoa_head 9 (- z) "") as (c & s & E & _).
    unfold Stdio.parse_int. rewrite Ascii.eqb_refl.
    pose proof (utoa_parse 10 (- z) "" ltac:(cbn; lia)) as P.
    rewrite E in *. rewrite P. cbn. f_equal. lia.
  - apply Z.ltb_ge in Hneg.
    destruct (utoa_head 9 z "") as (c & s & E & D).
    pose proof (utoa_parse 10 z "" ltac:(cbn; lia)) as P.
    rewrite E in *. unfold Stdio.parse_int.
    destruct (Ascii.eqb c "-") eqn:Hc.
    + apply Ascii.eqb_eq in Hc. subst c. discriminate D.
    + exact P.
Qed.

(** ** String literals *)

Lemma strlen_literal s :
  forallb (fun b => negb (Byte.eqb b x00)) (list_byte_of_string s) = true ->
  CString.strlen (CString.literal s) = Some (String.length s).
Proof.
  unfold CString.literal. induction s as [|c s IH]; [reflexivity|].
  change (list_byte_of_string (String c s))
    with (byte_of_ascii c :: list_byte_of_string s).
  cbn [forallb app CString.strlen String.length]. intros H.
  apply andb_prop in H as [Hc Hs].
  destruct (Byte.eqb (byte_of_ascii c) x00); [discriminate Hc|].
  rewrite (IH Hs). reflexivity.
Qed.

Lemma firstn_literal s :
  firstn (String.length s) (CString.literal s) = list_byte_of_string s.
Proof.
  unfold CString.literal. induction s as [|c s IH]; [reflexivity|].
  change (list_byte_of_string (String c s))
    with (byte_of_ascii c :: list_byte_of_string s).
  cbn [app String.length firstn]. now rewrite IH.
Qed.

Lemma literal_denotes s :
  forallb (fun b => negb (Byte.eqb b x00)) (list_byte_of_string s) = true ->
  CString.denotes (CString.literal s) s.
Proof.
  intros H. split; [apply strlen_literal, H | apply firstn_literal].
Qed.

(** ** Sample evaluations *)

Example itoa_min_signed : Stdio.itoa Int32.min_signed = "-2147483648".
Proof. reflexivity. Qed.

Example itoa_max_signed : Stdio.itoa Int32.max_signed = "2147483647".
Proof. reflexivity. Qed.

Example itoa_zero : Stdio.itoa 0 = "0".
Proof. reflexivity. Qed.

Example wrap_unsigned_max : Int32.wrap 4294967295 = -1.
Proof. reflexivity. Qed.

Example format_literal_percent : Stdio.format "%d%% of %d" [50; 8] = "50% of 8".
Proof. reflexivity. Qed.

Example run_fails :
  run_process upples_fails 3 world0 =
  Exited (-7)
    (mkWorld ("UPPLES: -7" ++ String newline "") "bind failed" "typed input"
             [] ["czor"; "--flag"] [("HOME", "/root")])
    [EvCall "127.0.0.1:3000"
            "/home/ivan/github/spin/examples/http-rust/spin.toml"
            "./TEMPYWEMPY" "./LOGGLYWOGGLY";
     EvRet (-7);
     EvWrite Stdout ("UPPLES: -7" ++ String newline "");
     EvExit (-7)].
Proof. reflexivity. Qed.

Example run_never_returns :
  run_process upples_serves_forever 3 world0 =
  Hung [EvCall "127.0.0.1:3000"
               "/home/ivan/github/spin/examples/http-rust/spin.toml"
               "./TEMPYWEMPY" "./LOGGLYWOGGLY"].
Proof. reflexivity. Qed.

Example run_short_of_fuel : run_process upples_ok 2 world0 = Unfinished.
Proof. reflexivity. Qed.

(** ** Runs of [main] *)

Lemma format_result res :
  Stdio.format ("UPPLES: %d" ++ String newline "") [res]
  = "UPPLES: " ++ Stdio.itoa (Int32.wrap res) ++ String newline "".
Proof. reflexivity. Qed.

Lemma exec_main impl w n :
  exec impl (3 + n) main w [] =
  match the_call impl w with
  | Some (w1, R) =>
      Returned R
        (put Stdout (Stdio.format ("UPPLES: %d" ++ String newline "") [R]) w1)
        [EvCall "127.0.0.1:3000"
                "/home/ivan/github/spin/examples/http-rust/spin.toml"
                "./TEMPYWEMPY" "./LOGGLYWOGGLY";
         EvRet R;
         EvWrite Stdout (Stdio.format ("UPPLES: %d" ++ String newline "") [R])]
  | None =>
      Blocked [EvCall "127.0.0.1:3000"
                      "/home/ivan/github/spin/examples/http-rust/spin.toml"
                      "./TEMPYWEMPY" "./LOGGLYWOGGLY"]
  end.
Proof.
  unfold the_call. cbn.
  destruct (impl _ _ _ _ w) as [[w1 R]|]; reflexivity.
Qed.

Lemma fuel_enough fuel : (3 <= fuel)%nat -> exists n, fuel = (3 + n)%nat.
Proof. intros H. exists (fuel - 3)%nat. lia. Qed.

Lemma run_returns impl w w1 R fuel :
  the_call impl w = Some (w1, R) ->
  (3 <= fuel)%nat ->
  run_process impl fuel w =
  Exited R
    (put Stdout (Stdio.format ("UPPLES: %d" ++ String newline "") [R]) w1)
    [EvCall "127.0.0.1:3000"
            "/home/ivan/github/spin/examples/http-rust/spin.toml"
            "./TEMPYWEMPY" "./LOGGLYWOGGLY";
     EvRet R;
     EvWrite Stdout (Stdio.format ("UPPLES: %d" ++ String newline "") [R]);
     EvExit R].
Proof.
  intros Hcall Hfuel. destruct (fuel_enough fuel Hfuel) as [n ->].
  unfold run_process. rewrite exec_main, Hcall. reflexivity.
Qed.

Lemma run_hangs impl w fuel :
  the_call impl w = None ->
  (3 <= fuel)%nat ->
  run_process impl fuel w =
  Hung [EvCall "127.0.0.1:3000"
               "/home/ivan/github/spin/examples/http-rust/spin.toml"
               "./TEMPYWEMPY" "./LOGGLYWOGGLY"].
Proof.
  intros Hcall Hfuel. destruct (fuel_enough fuel Hfuel) as [n ->].
  unfold run_process. rewrite exec_main, Hcall. reflexivity.
Qed.

(** For a status of the declared type, the text [printf] produces. *)
Lemma result_line R :
  Int32.in_range R ->
  Stdio.format ("UPPLES: %d" ++ String newline "") [R]
  = "UPPLES: " ++ Stdio.itoa R ++ String newline "".
Proof. intros H. rewrite format_result, wrap_in_range by exact H. reflexivity. Qed.

Lemma append_empty_r s : s ++ "" = s.
Proof. induction s as [|c s IH]; cbn; [reflexivity | now rewrite IH]. Qed.

Lemma single_line_end s :
  no_newline s = true -> single_line (s ++ String newline "") = true.
Proof.
  unfold no_newline. induction s as [|c s IH]; [reflexivity|].
  cbn [string_forallb single_line append]. intros H.
  apply andb_prop in H as [Hc Hs].
  destruct (Ascii.eqb c newline); [discriminate Hc | exact (IH Hs)].
Qed.

Lemma result_line_single R :
  single_line ("UPPLES: " ++ Stdio.itoa R ++ String newline "") = true.
Proof.
  change ("UPPLES: " ++ Stdio.itoa R ++ String newline "")
    with (("UPPLES: " ++ Stdio.itoa R) ++ String newline "").
  apply single_line_end.
  change (no_newline (Stdio.itoa R) = true). apply itoa_no_newline.
Qed.

Lemma main_all_finite : all_finite main.
Proof.
  eapply all_finiteVis; [cbn; reflexivity|]. intros res.
  eapply all_finiteVis; [cbn; reflexivity|]. intros n.
  eapply all_finiteRet. cbn. reflexivity.
Qed.

(** ** The claims *)

(** C1.  Whatever value R the external function returns, [main] returns R
    itself and the process exits with status R: the value is passed on with
    no masking or remapping. *)
Theorem exit_status_verbatim impl w w1 R fuel :
  the_call impl w = Some (w1, R) ->
  (3 <= fuel)%nat ->
  exists w' tr,
    exec impl fuel main w [] = Returned R w' tr /\
    run_process impl fuel w = Exited R w' (tr ++ [EvExit R])%list.
Proof.
  intros Hcall Hfuel. destruct (fuel_enough fuel Hfuel) as [n ->].
  unfold run_process. rewrite exec_main, Hcall.
  eexists. eexists. split; reflexivity.
Qed.

Lemma exit_status_verbatim_witness :
  the_call upples_fails world0 = Some (put Stderr "bind failed" world0, -7) /\
  exists w' tr,
    exec upples_fails 3 main world0 [] = Returned (-7) w' tr /\
    run_process upples_fails 3 world0 = Exited (-7) w' (tr ++ [EvExit (-7)])%list.
Proof.
  split; [reflexivity|].
  apply (exit_status_verbatim upples_fails world0
           (put Stderr "bind failed" world0) (-7) 3); [reflexivity | apply le_n].
Defined.

(** C2.  For every 32-bit status R the external function returns, the run
    of [main] writes exactly once, to standard output; what it writes is a
    single line; the line contains the decimal text of R, which reads back
    as R; standard output grows by that line only and standard error is left
    as the external function left it. *)
Theorem prints_one_line_reporting_status impl w w1 R fuel :
  the_call impl w = Some (w1, R) ->
  Int32.in_range R ->
  (3 <= fuel)%nat ->
  exists w' tr line,
    run_process impl fuel w = Exited R w' tr /\
    writes tr = [(Stdout, line)] /\
    single_line line = true /\
    (exists pre post, line = pre ++ Stdio.itoa R ++ post) /\
    Stdio.parse_int (Stdio.itoa R) = Some R /\
    w_stdout w' = w_stdout w1 ++ line /\
    w_stderr w' = w_stderr w1.
Proof.
  intros Hcall HR Hfuel.
  rewrite (run_returns impl w w1 R fuel Hcall Hfuel), (result_line R HR).
  eexists. eexists. eexists. split; [reflexivity|].
  split; [reflexivity|].
  split; [apply result_line_single|].
  split; [exists "UPPLES: ", (String newline ""); reflexivity|].
  split; [apply parse_itoa, HR|].
  split; reflexivity.
Qed.

Lemma prints_one_line_reporting_status_witness :
  the_call upples_fails world1 = Some (put Stderr "bind failed" world1, -7) /\
  Int32.in_range (-7) /\
  exists w' tr line,
    run_process upples_fails 5 world1 = Exited (-7) w' tr /\
    writes tr = [(Stdout, line)] /\
    single_line line = true /\
    (exists pre post, line = pre ++ Stdio.itoa (-7) ++ post) /\
    Stdio.parse_int (Stdio.itoa (-7)) = Some (-7) /\
    w_stdout w' = w_stdout (put Stderr "bind failed" world1) ++ line /\
    w_stderr w' = w_stderr (put Stderr "bind failed" world1).
Proof.
  assert (HR : Int32.in_range (-7)) by (split; discriminate).
  split; [reflexivity|]. split; [exact HR|].
  apply (prints_one_line_reporting_status upples_fails world1
           (put Stderr "bind failed" world1) (-7) 5);
    [reflexivity | exact HR | repeat constructor].
Defined.

(** C3.  In every execution, whether the external function returns (any
    value, zero or not) or never returns, it is called exactly once, with
    the four arguments "127.0.0.1:3000",
    "/home/ivan/github/spin/examples/http-rust/spin.toml", "./TEMPYWEMPY" and
    "./LOGGLYWOGGLY" in this order; no run shows a second call. *)
Theorem upples_called_once impl w fuel :
  (3 <= fuel)%nat ->
  match run_process impl fuel w with
  | Exited _ _ tr | Hung tr =>
      calls tr = [("127.0.0.1:3000",
                   "/home/ivan/github/spin/examples/http-rust/spin.toml",
                   "./TEMPYWEMPY",
                   "./LOGGLYWOGGLY")]
  | Unfinished => False
  end.
Proof.
  intros Hfuel. destruct (the_call impl w) as [[w1 R]|] eqn:Hcall.
  - rewrite (run_returns impl w w1 R fuel Hcall Hfuel). reflexivity.
  - rewrite (run_hangs impl w fuel Hcall Hfuel). reflexivity.
Qed.

Lemma upples_called_once_witness :
  (3 <= 4)%nat /\
  match run_process upples_serves_forever 4 world0 with
  | Exited _ _ tr | Hung tr =>
      calls tr = [("127.0.0.1:3000",
                   "/home/ivan/github/spin/examples/http-rust/spin.toml",
                   "./TEMPYWEMPY",
                   "./LOGGLYWOGGLY")]
  | Unfinished => False
  end.
Proof.
  split; [repeat constructor|].
  apply (upples_called_once upples_serves_forever world0 4). repeat constructor.
Defined.

(** C4.  A nonzero status R takes the same path as status zero: the run has
    the same events of the same kinds in the same order as a run in which the
    external function returns 0; R appears as the returned value, in the
    printed line and as the exit status, and nowhere else; nothing is written
    to standard error. *)
Theorem nonzero_status_same_path impl impl0 w w1 w1' R fuel :
  R <> 0 ->
  Int32.in_range R ->
  the_call impl w = Some (w1, R) ->
  the_call impl0 w = Some (w1', 0) ->
  (3 <= fuel)%nat ->
  exists wR tr wZ tr0,
    run_process impl fuel w = Exited R wR tr /\
    run_process impl0 fuel w = Exited 0 wZ tr0 /\
    map kind tr = map kind tr0 /\
    tr = [EvCall "127.0.0.1:3000"
                 "/home/ivan/github/spin/examples/http-rust/spin.toml"
                 "./TEMPYWEMPY" "./LOGGLYWOGGLY";
          EvRet R;
          EvWrite Stdout ("UPPLES: " ++ Stdio.itoa R ++ String newline "");
          EvExit R] /\
    w_stderr wR = w_stderr w1.
Proof.
  intros _ HR Hcall Hcall0 Hfuel.
  rewrite (run_returns impl w w1 R fuel Hcall Hfuel).
  rewrite (run_returns impl0 w w1' 0 fuel Hcall0 Hfuel).
  rewrite (result_line R HR).
  do 4 eexists. repeat split; reflexivity.
Qed.

Lemma nonzero_status_same_path_witness :
  -7 <> 0 /\
  Int32.in_range (-7) /\
  the_call upples_fails world0 = Some (put Stderr "bind failed" world0, -7) /\
  the_call upples_ok world0 = Some (world0, 0) /\
  exists wR tr wZ tr0,
    run_process upples_fails 3 world0 = Exited (-7) wR tr /\
    run_process upples_ok 3 world0 = Exited 0 wZ tr0 /\
    map kind tr = map kind tr0 /\
    tr = [EvCall "127.0.0.1:3000"
                 "/home/ivan/github/spin/examples/http-rust/spin.toml"
                 "./TEMPYWEMPY" "./LOGGLYWOGGLY";
          EvRet (-7);
          EvWrite Stdout ("UPPLES: " ++ Stdio.itoa (-7) ++ String newline "");
          EvExit (-7)] /\
    w_stderr wR = w_stderr (put Stderr "bind failed" world0).
Proof.
  assert (HR : Int32.in_range (-7)) by (split; discriminate).
  split; [discriminate|]. split; [exact HR|].
  split; [reflexivity|]. split; [reflexivity|].
  apply (nonzero_status_same_path upples_fails upples_ok world0
           (put Stderr "bind failed" world0) world0 (-7) 3);
    [discriminate | exact HR | reflexivity | reflexivity | apply le_n].
Defined.

Lemma literal_reads_back s :
  forallb (fun b => negb (Byte.eqb b x00)) (list_byte_of_string s) = true ->
  Abi.read_text [CString.literal s] (Abi.mkPointer 0 0) = Some s.
Proof.
  intros H. unfold Abi.read_text. cbn [nth_error Abi.p_object Abi.p_offset skipn].
  rewrite (strlen_literal s H). cbn [option_map].
  rewrite firstn_literal, string_of_list_byte_of_string. reflexivity.
Qed.

Lemma abi_run_refines raw w fuel :
  Abi.run raw fuel w = Abi.Ran (run_process (Abi.int32_result raw) fuel w).
Proof.
  unfold Abi.run, run_process, Abi.int32_result.
  destruct fuel as [|[|[|fuel]]]; cbn;
    try match goal with
        | |- context [raw ?a ?b ?c ?d w] =>
            destruct (raw a b c d w) as [[w1 r]|]
        end;
    reflexivity.
Qed.

Lemma status_received_in_range raw w fuel :
  match run_process (Abi.int32_result raw) fuel w with
  | Exited R _ _ => Int32.in_range R
  | Hung _ | Unfinished => True
  end.
Proof.
  destruct (le_lt_dec 3 fuel) as [Hfuel|Hfuel].
  - destruct (the_call (Abi.int32_result raw) w) as [[w1 R]|] eqn:Hcall.
    + rewrite (run_returns _ w w1 R fuel Hcall Hfuel).
      unfold the_call, Abi.int32_result in Hcall.
      destruct (raw _ _ _ _ w) as [[w' r]|]; [|discriminate Hcall].
      injection Hcall as _ <-. apply wrap_range.
    + rewrite (run_hangs _ w fuel Hcall Hfuel). exact I.
  - unfold run_process, Abi.int32_result.
    destruct fuel as [|[|[|fuel]]]; [| | |lia]; cbn;
      try match goal with
          | |- context [raw ?a ?b ?c ?d w] =>
              destruct (raw a b c d w) as [[w1 r]|]
          end;
      exact I.
Qed.

Example three_arguments_violate :
  Abi.exec upples_decl Abi.rodata upples_ok 3
    (ITree.trigger
       (Abi.Call_upples [Abi.Vptr (Abi.literal_at 0);
                         Abi.Vptr (Abi.literal_at 1);
                         Abi.Vptr (Abi.literal_at 2)]))
    world0 []
  = Abi.Violation.
Proof. reflexivity. Qed.

Example integer_argument_violates :
  Abi.exec upples_decl Abi.rodata upples_ok 3
    (ITree.trigger
       (Abi.Call_upples [Abi.Vptr (Abi.literal_at 0);
                         Abi.Vptr (Abi.literal_at 1);
                         Abi.Vptr (Abi.literal_at 2);
                         Abi.Vint 3000]))
    world0 []
  = Abi.Violation.
Proof. reflexivity. Qed.

Example unterminated_array_violates :
  Abi.exec upples_decl
    [CString.literal "a"; CString.literal "b"; CString.literal "c";
     [x2e; x2f; x4c]]
    upples_ok 3 Abi.main world0 []
  = Abi.Violation.
Proof. reflexivity. Qed.

Example text_stops_at_first_zero :
  Abi.read_text [[x61; x62; x00; x63; x00]] (Abi.mkPointer 0 0) = Some "ab" /\
  Abi.read_text [[x61; x62; x00; x63; x00]] (Abi.mkPointer 0 3) = Some "c" /\
  Abi.read_text [[x61; x62; x00; x63; x00]] (Abi.mkPointer 0 5) = None /\
  Abi.read_text [[x61; x62; x00; x63; x00]] (Abi.mkPointer 1 0) = None.
Proof. repeat split; reflexivity. Qed.

Example other_declaration_violates :
  Abi.exec (mkFundecl "upples" [Tconst_char_ptr; Tconst_char_ptr] Tint32)
    Abi.rodata upples_ok 3 Abi.main world0 []
  = Abi.Violation.
Proof. reflexivity. Qed.

(** C5.  The call in [main] respects the declaration of [upples]: its actual
    arguments, passed to the four declared [const char*] parameters, are
    four pointers to null-terminated arrays, read as the four texts of the
    source; checked against the declaration, no run of [main] is a
    violation, whatever the external function does and however long the
    run; the checked run is the run of [main] on those texts; and the status
    received at the declared result type is a signed 32-bit integer. *)
Theorem upples_call_respects_declaration raw w fuel :
  (exists actuals,
     Abi.call_actuals Abi.main = Some actuals /\
     length actuals = 4%nat /\
     Forall (fun v => exists p object,
                 v = Abi.Vptr p /\
                 nth_error Abi.rodata (Abi.p_object p) = Some object /\
                 CString.strlen (skipn (Abi.p_offset p) object) <> None)
            actuals /\
     Abi.read_args Abi.rodata (fd_params upples_decl) actuals =
       Some ["127.0.0.1:3000";
             "/home/ivan/github/spin/examples/http-rust/spin.toml";
             "./TEMPYWEMPY";
             "./LOGGLYWOGGLY"]) /\
  match Abi.run raw fuel w with
  | Abi.Violation => False
  | Abi.Ran e =>
      e = run_process (Abi.int32_result raw) fuel w /\
      match e with
      | Exited R _ _ => - 2 ^ 31 <= R <= 2 ^ 31 - 1
      | Hung _ | Unfinished => True
      end
  end.
Proof.
  split.
  - eexists. split; [reflexivity|]. split; [reflexivity|]. split.
    + repeat (apply Forall_cons;
              [eexists; eexists; split; [reflexivity|];
               split; [reflexivity | discriminate]|]).
      apply Forall_nil.
    + reflexivity.
  - rewrite abi_run_refines. split; [reflexivity|].
    apply status_received_in_range.
Qed.

(** C6.  When the external function returns a 32-bit status R, the run
    shows, in this order and with nothing in between: the call, its return
    with R, the write to standard output of the result line "UPPLES: "
    followed by the decimal text of R and a newline, the exit with status
    R.  The line is appended to standard output as the external function
    left it. *)
Theorem call_then_print_then_exit impl w w1 R fuel :
  the_call impl w = Some (w1, R) ->
  Int32.in_range R ->
  (3 <= fuel)%nat ->
  exists w',
    run_process impl fuel w =
      Exited R w'
        [EvCall "127.0.0.1:3000"
                "/home/ivan/github/spin/examples/http-rust/spin.toml"
                "./TEMPYWEMPY" "./LOGGLYWOGGLY";
         EvRet R;
         EvWrite Stdout ("UPPLES: " ++ Stdio.itoa R ++ String newline "");
         EvExit R] /\
    w_stdout w' =
      w_stdout w1 ++ "UPPLES: " ++ Stdio.itoa R ++ String newline "" /\
    Stdio.parse_int (Stdio.itoa R) = Some R.
Proof.
  intros Hcall HR Hfuel.
  rewrite (run_returns impl w w1 R fuel Hcall Hfuel), (result_line R HR).
  eexists. split; [reflexivity|]. split; [reflexivity|].
  apply parse_itoa, HR.
Qed.

Lemma call_then_print_then_exit_witness :
  the_call upples_fails world1 = Some (put Stderr "bind failed" world1, -7) /\
  Int32.in_range (-7) /\
  (3 <= 3)%nat /\
  exists w',
    run_process upples_fails 3 world1 =
      Exited (-7) w'
        [EvCall "127.0.0.1:3000"
                "/home/ivan/github/spin/examples/http-rust/spin.toml"
                "./TEMPYWEMPY" "./LOGGLYWOGGLY";
         EvRet (-7);
         EvWrite Stdout ("UPPLES: " ++ Stdio.itoa (-7) ++ String newline "");
         EvExit (-7)] /\
    w_stdout w' =
      w_stdout (put Stderr "bind failed" world1)
      ++ "UPPLES: " ++ Stdio.itoa (-7) ++ String newline "" /\
    Stdio.parse_int (Stdio.itoa (-7)) = Some (-7).
Proof.
  assert (HR : Int32.in_range (-7)) by (split; discriminate).
  split; [reflexivity|]. split; [exact HR|]. split; [apply le_n|].
  apply (call_then_print_then_exit upples_fails world1
           (put Stderr "bind failed" world1) (-7) 3);
    [reflexivity | exact HR | apply le_n].
Defined.

(** C7.  The printed output and the exit status depend on R alone: two runs
    in which the external function returns the same R, started in any two
    worlds (command line, environment variables, pending input, files) and
    with any two behaviours of the external function, show the same events,
    print the same text and exit with the same status. *)
Theorem observable_depends_on_status_only
  impl_a impl_b w_a w_b w_a1 w_b1 R fuel_a fuel_b :
  the_call impl_a w_a = Some (w_a1, R) ->
  the_call impl_b w_b = Some (w_b1, R) ->
  (3 <= fuel_a)%nat ->
  (3 <= fuel_b)%nat ->
  exists status w_a' w_b' tr_a tr_b,
    run_process impl_a fuel_a w_a = Exited status w_a' tr_a /\
    run_process impl_b fuel_b w_b = Exited status w_b' tr_b /\
    printed tr_a = printed tr_b /\
    tr_a = tr_b.
Proof.
  intros Ha Hb Hfa Hfb.
  rewrite (run_returns impl_a w_a w_a1 R fuel_a Ha Hfa).
  rewrite (run_returns impl_b w_b w_b1 R fuel_b Hb Hfb).
  do 5 eexists. repeat split; reflexivity.
Qed.

Lemma observable_depends_on_status_only_witness :
  the_call upples_ok world0 = Some (world0, 0) /\
  the_call (fun _ _ _ _ w => Some (put Stdout "listening" w, 0)) world1
    = Some (put Stdout "listening" world1, 0) /\
  exists status w_a' w_b' tr_a tr_b,
    run_process upples_ok 3 world0 = Exited status w_a' tr_a /\
    run_process (fun _ _ _ _ w => Some (put Stdout "listening" w, 0)) 4 world1
      = Exited status w_b' tr_b /\
    printed tr_a = printed tr_b /\
    tr_a = tr_b.
Proof.
  split; [reflexivity|]. split; [reflexivity|].
  apply (observable_depends_on_status_only
           upples_ok (fun _ _ _ _ w => Some (put Stdout "listening" w, 0))
           world0 world1 world0 (put Stdout "listening" world1) 0 3 4);
    [reflexivity | reflexivity | repeat constructor | repeat constructor].
Defined.

(** C8.  For every 32-bit status R, the one thing written is exactly
    "UPPLES: ", the signed decimal text of R, and a newline; the decimal text
    reads back as R. *)
Theorem printed_line_format impl w w1 R fuel :
  the_call impl w = Some (w1, R) ->
  Int32.in_range R ->
  (3 <= fuel)%nat ->
  exists w' tr,
    run_process impl fuel w = Exited R w' tr /\
    writes tr = [(Stdout, "UPPLES: " ++ Stdio.itoa R ++ String newline "")] /\
    printed tr = "UPPLES: " ++ Stdio.itoa R ++ String newline "" /\
    Stdio.parse_int (Stdio.itoa R) = Some R.
Proof.
  intros Hcall HR Hfuel.
  rewrite (run_returns impl w w1 R fuel Hcall Hfuel), (result_line R HR).
  eexists. eexists. split; [reflexivity|].
  split; [reflexivity|]. split.
  - cbn [printed]. apply append_empty_r.
  - apply parse_itoa, HR.
Qed.

Lemma printed_line_format_witness :
  the_call upples_fails world0 = Some (put Stderr "bind failed" world0, -7) /\
  Int32.in_range (-7) /\
  exists w' tr,
    run_process upples_fails 3 world0 = Exited (-7) w' tr /\
    writes tr = [(Stdout, "UPPLES: " ++ Stdio.itoa (-7) ++ String newline "")] /\
    printed tr = "UPPLES: " ++ Stdio.itoa (-7) ++ String newline "" /\
    Stdio.parse_int (Stdio.itoa (-7)) = Some (-7).
Proof.
  assert (HR : Int32.in_range (-7)) by (split; discriminate).
  split; [reflexivity|]. split; [exact HR|].
  apply (printed_line_format upples_fails world0
           (put Stderr "bind failed" world0) (-7) 3);
    [reflexivity | exact HR | apply le_n].
Defined.

(** C9.  [main] is a finite tree along every branch (no loop, no
    recursion), and whenever the call of the external function returns, the
    process terminates: three steps are enough, and more fuel does not
    change the result. *)
Theorem terminates_when_upples_returns impl w w1 R :
  the_call impl w = Some (w1, R) ->
  all_finite main /\
  exists w' tr, forall fuel, (3 <= fuel)%nat ->
    run_process impl fuel w = Exited R w' tr.
Proof.
  intros Hcall. split; [exact main_all_finite|].
  eexists. eexists. intros fuel Hfuel.
  apply (run_returns impl w w1 R fuel Hcall Hfuel).
Qed.

Lemma terminates_when_upples_returns_witness :
  the_call upples_ok world0 = Some (world0, 0) /\
  all_finite main /\
  exists w' tr, forall fuel, (3 <= fuel)%nat ->
    run_process upples_ok fuel world0 = Exited 0 w' tr.
Proof.
  split; [reflexivity|].
  apply (terminates_when_upples_returns upples_ok world0 world0 0).
  reflexivity.
Defined.

(** C10.  Apart from the call of the external function, the only effect of
    [main] is one write to standard output: the world at exit is the world
    the external function left, with that text appended to standard output;
    standard error, standard input, the files, the command line and the
    environment are untouched. *)
Theorem only_effect_is_stdout_write impl w w1 R fuel :
  the_call impl w = Some (w1, R) ->
  (3 <= fuel)%nat ->
  exists w' tr line,
    run_process impl fuel w = Exited R w' tr /\
    own_effects tr = [EvWrite Stdout line] /\
    w' = put Stdout line w1 /\
    w_stdout w' = w_stdout w1 ++ line /\
    w_stderr w' = w_stderr w1 /\
    w_stdin w' = w_stdin w1 /\
    w_files w' = w_files w1 /\
    w_argv w' = w_argv w1 /\
    w_environ w' = w_environ w1.
Proof.
  intros Hcall Hfuel. rewrite (run_returns impl w w1 R fuel Hcall Hfuel).
  do 3 eexists. repeat split; reflexivity.
Qed.

Lemma only_effect_is_stdout_write_witness :
  the_call upples_fails world1 = Some (put Stderr "bind failed" world1, -7) /\
  exists w' tr line,
    run_process upples_fails 3 world1 = Exited (-7) w' tr /\
    own_effects tr = [EvWrite Stdout line] /\
    w' = put Stdout line (put Stderr "bind failed" world1) /\
    w_stdout w' = w_stdout (put Stderr "bind failed" world1) ++ line /\
    w_stderr w' = w_stderr (put Stderr "bind failed" world1) /\
    w_stdin w' = w_stdin (put Stderr "bind failed" world1) /\
    w_files w' = w_files (put Stderr "bind failed" world1) /\
    w_argv w' = w_argv (put Stderr "bind failed" world1) /\
    w_environ w' = w_environ (put Stderr "bind failed" world1).
Proof.
  split; [reflexivity|].
  apply (only_effect_is_stdout_write upples_fails world1
           (put Stderr "bind failed" world1) (-7) 3);
    [reflexivity | apply le_n].
Defined.

(** * Further properties of [main] *)

(** ** Helper lemmas *)

Lemma exec_with_handle impl {R} fuel : forall (t : itree procE R) w tr,
  exec_with (fun X e => handle impl e) fuel t w tr = exec impl fuel t w tr.
Proof.
  induction fuel as [|fuel IH]; intros t w tr; [reflexivity|].
  cbn [exec_with exec]. destruct (observe t) as [r|t'|X e k].
  - reflexivity.
  - apply IH.
  - destruct (handle impl e w) as [[w' x]|]; [apply IH | reflexivity].
Qed.

Lemma strip_newline_end s : strip_newline (s ++ String newline "") = Some s.
Proof.
  induction s as [|c s IH]; [reflexivity|].
  destruct s as [|d s]; [reflexivity|].
  change (strip_newline (String c (String d s) ++ String newline ""))
    with (option_map (String c)
            (strip_newline (String d s ++ String newline ""))).
  rewrite IH. reflexivity.
Qed.

Lemma read_result_line R :
  Int32.in_range R ->
  read_result ("UPPLES: " ++ Stdio.itoa R ++ String newline "") = Some R.
Proof.
  intros HR. unfold read_result.
  change (strip_prefix "UPPLES: "
            ("UPPLES: " ++ Stdio.itoa R ++ String newline ""))
    with (Some (Stdio.itoa R ++ String newline "")).
  cbv iota beta. rewrite strip_newline_end. apply parse_itoa, HR.
Qed.

Lemma length_append s t :
  String.length (s ++ t) = (String.length s + String.length t)%nat.
Proof. induction s as [|c s IH]; cbn; [reflexivity | now rewrite IH]. Qed.

Lemma utoa_length fuel : forall n acc,
  (String.length acc + 1 <= String.length (Stdio.utoa (S fuel) n acc)
   <= String.length acc + S fuel)%nat.
Proof.
  induction fuel as [|fuel IH]; intros n acc.
  - cbn. destruct (n / 10 =? 0); cbn; lia.
  - change (Stdio.utoa (S (S fuel)) n acc)
      with (if n / 10 =? 0
            then String (Stdio.digit_char (n mod 10)) acc
            else Stdio.utoa (S fuel) (n / 10)
                            (String (Stdio.digit_char (n mod 10)) acc)).
    destruct (n / 10 =? 0).
    + cbn [String.length]. lia.
    + specialize (IH (n / 10) (String (Stdio.digit_char (n mod 10)) acc)).
      cbn [String.length] in IH. lia.
Qed.

Lemma itoa_length z : (1 <= String.length (Stdio.itoa z) <= 11)%nat.
Proof.
  unfold Stdio.itoa. destruct (z <? 0).
  - pose proof (utoa_length 9 (- z) "") as H.
    cbn [String.length] in *. lia.
  - pose proof (utoa_length 9 z "") as H.
    cbn [String.length] in *. lia.
Qed.

Example shortest_line :
  String.length (Stdio.format ("UPPLES: %d" ++ String newline "") [0]) = 10%nat.
Proof. reflexivity. Qed.

Example longest_line :
  String.length
    (Stdio.format ("UPPLES: %d" ++ String newline "") [Int32.min_signed])
  = 20%nat.
Proof. reflexivity. Qed.

(** ** The properties *)

(** X1.  Until the call of the external function returns, [main] does
    nothing else: when the call does not return, however long the run is
    observed [main] has made no write and has returned no status; all the
    run shows of [main] is the one call. *)
Theorem main_idle_until_upples_returns impl w fuel :
  the_call impl w = None ->
  match exec impl fuel main w [] with
  | Returned _ _ _ => False
  | Blocked tr =>
      writes tr = [] /\
      tr = [EvCall "127.0.0.1:3000"
                   "/home/ivan/github/spin/examples/http-rust/spin.toml"
                   "./TEMPYWEMPY" "./LOGGLYWOGGLY"]
  | OutOfFuel => fuel = 0%nat
  end.
Proof.
  unfold the_call. intros Hcall.
  destruct fuel as [|fuel]; [reflexivity|].
  cbn. rewrite Hcall. split; reflexivity.
Qed.

Lemma main_idle_until_upples_returns_witness :
  the_call upples_serves_forever world1 = None /\
  match exec upples_serves_forever 7 main world1 [] with
  | Returned _ _ _ => False
  | Blocked tr =>
      writes tr = [] /\
      tr = [EvCall "127.0.0.1:3000"
                   "/home/ivan/github/spin/examples/http-rust/spin.toml"
                   "./TEMPYWEMPY" "./LOGGLYWOGGLY"]
  | OutOfFuel => 7%nat = 0%nat
  end.
Proof.
  split; [reflexivity|].
  apply (main_idle_until_upples_returns upples_serves_forever world1 7).
  reflexivity.
Defined.

(** X2.  The result of [printf] is ignored: in any environment, whatever the
    write to standard output answers (a count, or a negative value for a
    failed write) and whatever it does to the world, [main] returns the
    status the external function returned. *)
Theorem status_survives_print_outcome (h : handler) w w1 w2 R n fuel :
  h _ (Upples "127.0.0.1:3000"
              "/home/ivan/github/spin/examples/http-rust/spin.toml"
              "./TEMPYWEMPY" "./LOGGLYWOGGLY") w = Some (w1, R) ->
  h _ (Fputs Stdout (Stdio.format ("UPPLES: %d" ++ String newline "") [R])) w1
    = Some (w2, n) ->
  (3 <= fuel)%nat ->
  exec_with h fuel main w [] =
  Returned R w2
    [EvCall "127.0.0.1:3000"
            "/home/ivan/github/spin/examples/http-rust/spin.toml"
            "./TEMPYWEMPY" "./LOGGLYWOGGLY";
     EvRet R;
     EvWrite Stdout (Stdio.format ("UPPLES: %d" ++ String newline "") [R])].
Proof.
  intros Hcall Hput Hfuel. destruct (fuel_enough fuel Hfuel) as [k ->].
  change (3 + k)%nat with (S (S (S k))).
  cbn [exec_with]. cbn. cbn in Hcall, Hput. rewrite Hcall. cbn.
  rewrite Hput. reflexivity.
Qed.

Lemma status_survives_print_outcome_witness :
  handle_closed_stdout upples_fails _
    (Upples "127.0.0.1:3000"
            "/home/ivan/github/spin/examples/http-rust/spin.toml"
            "./TEMPYWEMPY" "./LOGGLYWOGGLY") world0
    = Some (put Stderr "bind failed" world0, -7) /\
  handle_closed_stdout upples_fails _
    (Fputs Stdout (Stdio.format ("UPPLES: %d" ++ String newline "") [-7]))
    (put Stderr "bind failed" world0)
    = Some (put Stderr "bind failed" world0, -1) /\
  exec_with (handle_closed_stdout upples_fails) 3 main world0 [] =
  Returned (-7) (put Stderr "bind failed" world0)
    [EvCall "127.0.0.1:3000"
            "/home/ivan/github/spin/examples/http-rust/spin.toml"
            "./TEMPYWEMPY" "./LOGGLYWOGGLY";
     EvRet (-7);
     EvWrite Stdout
       (Stdio.format ("UPPLES: %d" ++ String newline "") [-7])].
Proof.
  split; [reflexivity|]. split; [reflexivity|].
  apply (status_survives_print_outcome (handle_closed_stdout upples_fails)
           world0 (put Stderr "bind failed" world0)
           (put Stderr "bind failed" world0) (-7) (-1) 3);
    [reflexivity | reflexivity | apply le_n].
Defined.

(** X3.  The printed text can be read back: for every 32-bit status R, a
    reader that drops the prefix "UPPLES: " and the final newline of what the
    run printed and reads the decimal number left gets R, the exit status. *)
Theorem printed_status_reads_back impl w w1 R fuel :
  the_call impl w = Some (w1, R) ->
  Int32.in_range R ->
  (3 <= fuel)%nat ->
  exists w' tr,
    run_process impl fuel w = Exited R w' tr /\
    read_result (printed tr) = Some R.
Proof.
  intros Hcall HR Hfuel.
  rewrite (run_returns impl w w1 R fuel Hcall Hfuel), (result_line R HR).
  eexists. eexists. split; [reflexivity|].
  cbn [printed]. rewrite append_empty_r. apply read_result_line, HR.
Qed.

Lemma printed_status_reads_back_witness :
  the_call upples_fails world1 = Some (put Stderr "bind failed" world1, -7) /\
  Int32.in_range (-7) /\
  exists w' tr,
    run_process upples_fails 3 world1 = Exited (-7) w' tr /\
    read_result (printed tr) = Some (-7).
Proof.
  assert (HR : Int32.in_range (-7)) by (split; discriminate).
  split; [reflexivity|]. split; [exact HR|].
  apply (printed_status_reads_back upples_fails world1
           (put Stderr "bind failed" world1) (-7) 3);
    [reflexivity | exact HR | apply le_n].
Defined.

(** X4.  Different statuses are told apart by the output: two runs in which
    the external function returns different 32-bit values print different
    text. *)
Theorem distinct_status_distinct_output
  impl_a impl_b w_a w_b w_a1 w_b1 R_a R_b fuel :
  the_call impl_a w_a = Some (w_a1, R_a) ->
  the_call impl_b w_b = Some (w_b1, R_b) ->
  Int32.in_range R_a ->
  Int32.in_range R_b ->
  R_a <> R_b ->
  (3 <= fuel)%nat ->
  exists w_a' w_b' tr_a tr_b,
    run_process impl_a fuel w_a = Exited R_a w_a' tr_a /\
    run_process impl_b fuel w_b = Exited R_b w_b' tr_b /\
    printed tr_a <> printed tr_b.
Proof.
  intros Ha Hb HRa HRb Hneq Hfuel.
  rewrite (run_returns impl_a w_a w_a1 R_a fuel Ha Hfuel), (result_line R_a HRa).
  rewrite (run_returns impl_b w_b w_b1 R_b fuel Hb Hfuel), (result_line R_b HRb).
  do 4 eexists. split; [reflexivity|]. split; [reflexivity|].
  cbn [printed]. rewrite !append_empty_r. intros Heq.
  apply Hneq.
  pose proof (read_result_line R_a HRa) as Pa.
  pose proof (read_result_line R_b HRb) as Pb.
  rewrite Heq in Pa. congruence.
Qed.

Lemma distinct_status_distinct_output_witness :
  the_call upples_fails world0 = Some (put Stderr "bind failed" world0, -7) /\
  the_call upples_ok world0 = Some (world0, 0) /\
  Int32.in_range (-7) /\
  Int32.in_range 0 /\
  -7 <> 0 /\
  exists w_a' w_b' tr_a tr_b,
    run_process upples_fails 3 world0 = Exited (-7) w_a' tr_a /\
    run_process upples_ok 3 world0 = Exited 0 w_b' tr_b /\
    printed tr_a <> printed tr_b.
Proof.
  assert (HRa : Int32.in_range (-7)) by (split; discriminate).
  assert (HRb : Int32.in_range 0) by (split; discriminate).
  split; [reflexivity|]. split; [reflexivity|].
  split; [exact HRa|]. split; [exact HRb|]. split; [discriminate|].
  apply (distinct_status_distinct_output upples_fails upples_ok world0 world0
           (put Stderr "bind failed" world0) world0 (-7) 0 3);
    [reflexivity | reflexivity | exact HRa | exact HRb | discriminate
    | apply le_n].
Defined.

(** X5.  The line [main] writes is short: whatever the external function
    returns, the text has between 10 and 20 characters (the prefix, one to
    eleven characters of number, the newline).  Both bounds are reached: the
    line has 10 characters for status 0 and 20 for status -2147483648. *)
Theorem printed_line_length impl w w1 R fuel :
  the_call impl w = Some (w1, R) ->
  (3 <= fuel)%nat ->
  exists w' tr line,
    run_process impl fuel w = Exited R w' tr /\
    writes tr = [(Stdout, line)] /\
    (10 <= String.length line <= 20)%nat /\
    (R = 0 -> String.length line = 10%nat) /\
    (R = -2147483648 -> String.length line = 20%nat).
Proof.
  intros Hcall Hfuel.
  rewrite (run_returns impl w w1 R fuel Hcall Hfuel).
  do 3 eexists. split; [reflexivity|]. split; [reflexivity|].
  split; [|split].
  - rewrite format_result, !length_append.
    pose proof (itoa_length (Int32.wrap R)) as H.
    cbn [String.length]. lia.
  - intros ->. reflexivity.
  - intros ->. reflexivity.
Qed.

Lemma printed_line_length_witness :
  the_call (fun _ _ _ _ w => Some (w, -2147483648)) world0
    = Some (world0, -2147483648) /\
  exists w' tr line,
    run_process (fun _ _ _ _ w => Some (w, -2147483648)) 3 world0
      = Exited (-2147483648) w' tr /\
    writes tr = [(Stdout, line)] /\
    (10 <= String.length line <= 20)%nat /\
    (-2147483648 = 0 -> String.length line = 10%nat) /\
    (-2147483648 = -2147483648 -> String.length line = 20%nat).
Proof.
  split; [reflexivity|].
  apply (printed_line_length (fun _ _ _ _ w => Some (w, -2147483648))
           world0 world0 (-2147483648) 3);
    [reflexivity | apply le_n].
Defined.
